(** * ChatList: the sidebar list of chat conversations

    A shallow embedding of [src/components/ChatList.tsx] and the properties
    of its derivation helpers and event handlers.

    - JavaScript strings are modelled as [string]; one character of the model
      stands for one UTF-16 code unit, which is what [.length] and
      [.substring] count.
    - The numbers the component computes with are integers, or [NaN] where a
      [Date] may be invalid.
    - Code that can throw returns a [completion]; the handlers, which also
      talk to the outside (the confirm dialog, the persistence service, the
      parent's callbacks) and write the component's state, run in the
      [Handler] monad: state passing over the [chats] state, with the trace
      of what was called. *)

From Stdlib Require Import String Ascii List ZArith Lia Bool DecimalString.
Import ListNotations.

Local Open Scope string_scope.
Local Open Scope Z_scope.

(* ===================================================================== *)
(** * Part I: the embedding *)
(* ===================================================================== *)

(** ** JavaScript primitives used by the component *)

Module Js.

(** A number that is an integer or NaN: time values of dates, and what
    [formatTime] derives from them. *)
Inductive number : Type :=
| Int (z : Z)
| NaN.

(** [a - b] *)
Definition sub (a b : number) : number :=
  match a, b with
  | Int x, Int y => Int (x - y)
  | _, _ => NaN
  end.

(** [Math.floor(a / d)] for a positive integer constant [d]. *)
Definition floor_div (a : number) (d : Z) : number :=
  match a with
  | Int x => Int (x / d)
  | NaN => NaN
  end.

(** [a < k]: every comparison with NaN is false. *)
Definition lt (a : number) (k : Z) : bool :=
  match a with
  | Int x => x <? k
  | NaN => false
  end.

(** [`${n}`] for an integer: decimal digits, a leading minus sign when
    negative. *)
Definition int_toString (n : Z) : string :=
  NilZero.string_of_int (Z.to_int n).

(** [`${a}`] *)
Definition toString (a : number) : string :=
  match a with
  | Int x => int_toString x
  | NaN => "NaN"
  end.

(** Truthiness of a number: [0] and [NaN] are falsy. *)
Definition number_truthy (a : number) : bool :=
  match a with
  | Int x => negb (x =? 0)
  | NaN => false
  end.

(** [s.length] *)
Definition length (s : string) : Z := Z.of_nat (String.length s).

(** [s.substring(start, end)]: both indices are clamped to
    [0 .. s.length] and swapped when [start > end]. *)
Definition substring (s : string) (start end_ : Z) : string :=
  let len := length s in
  let finalStart := Z.min (Z.max start 0) len in
  let finalEnd := Z.min (Z.max end_ 0) len in
  let from := Z.min finalStart finalEnd in
  let to := Z.max finalStart finalEnd in
  String.substring (Z.to_nat from) (Z.to_nat (to - from)) s.

(** [a.length] *)
Definition array_length {A : Type} (a : list A) : Z :=
  Z.of_nat (List.length a).

(** [a[i]]: [undefined] (here [None]) outside [0 .. a.length - 1]. *)
Definition index {A : Type} (a : list A) (i : Z) : option A :=
  if i <? 0 then None else nth_error a (Z.to_nat i).

(** [a[i]] for an array whose elements are themselves typed
    [T | undefined]: a missing element and an [undefined] one read alike. *)
Definition index_undef {A : Type} (a : list (option A)) (i : Z) : option A :=
  match index a i with
  | Some v => v
  | None => None
  end.

(** [Boolean(v)] for [v : string | undefined]: [undefined] and the empty
    string are falsy. *)
Definition truthy (v : option string) : bool :=
  match v with
  | Some s => negb (s =? "")%string
  | None => false
  end.

(** What is thrown: a [TypeError] on a property read of [undefined], or
    whatever an external call rejects with or throws. *)
Inductive thrown : Type :=
| TypeError
| Rejection (reason : string).

(** How an evaluation ends. *)
Inductive completion (A : Type) : Type :=
| Normal (a : A)
| Throw (e : thrown).

Arguments Normal {A} a.
Arguments Throw {A} e.

(** Using a possibly [undefined] value as an object ([v.length],
    [v.content]): a [TypeError] when it is [undefined]. *)
Definition deref {A : Type} (v : option A) : completion A :=
  match v with
  | Some a => Normal a
  | None => Throw TypeError
  end.

Definition bind {A B : Type} (c : completion A) (k : A -> completion B)
  : completion B :=
  match c with
  | Normal a => k a
  | Throw e => Throw e
  end.

End Js.

Import Js(completion, Normal, Throw, TypeError, Rejection).

Notation "'let!' x ':=' c 'in' k" := (Js.bind c (fun x => k))
  (at level 10, x name, c at level 100, k at level 200).

(** ** The records the component consumes *)

(** A [Date] appears here only through [getTime()] and
    [toLocaleDateString()]: it is modelled as its time value, milliseconds
    since the epoch, or NaN for an invalid date. *)
Definition Date : Type := Js.number.

Definition getTime (d : Date) : Js.number := d.

(** Modelled from the spec: the message type is declared in
    [services/databaseService], which is not part of this file; the
    component reads only [content]. *)
Module Message.
Record t : Type := mk { content : string }.
End Message.

(** Modelled from the spec: [Conversation] is declared in
    [services/databaseService]; the fields are those [handleNewChat] builds:
    an identifier, a name, the linked document identifiers, the ordered
    messages and the two timestamps. *)
Module Conversation.
Record t : Type := mk {
  id : string;
  name : string;
  pdfIds : list string;
  messages : list Message.t;
  createdAt : Date;
  updatedAt : Date
}.
End Conversation.

(** Modelled from the spec: [PDFDocument] is declared in [./PDFManager]; a
    document is identified by [id] and carries a [name]. *)
Module PDFDocument.
Record t : Type := mk { id : string; name : string }.
End PDFDocument.

(** ** The derivation helpers *)

(** [truncateText] (lines 80-83). [maxLength] is an integer; the call sites
    pass 30 and 15. *)
Definition truncateText (text : string) (maxLength : Z) : string :=
  if Js.length text <=? maxLength then text
  else (Js.substring text 0 (maxLength - 3) ++ "...")%string.

(** [truncateText] applied to a value typed [string | undefined] under a
    non-null assertion: the assertion is erased at run time, and
    [text.length] throws on [undefined]. *)
Definition truncateText_asserted (text : option string) (maxLength : Z)
  : completion string :=
  let! text := Js.deref text in
  Normal (truncateText text maxLength).

(** [availablePDFs.find(pdf => pdf.id === pdfId)?.name] *)
Definition findPdfName (availablePDFs : list PDFDocument.t) (pdfId : string)
  : option string :=
  option_map PDFDocument.name
    (find (fun pdf => (PDFDocument.id pdf =? pdfId)%string) availablePDFs).

(** [availablePDFs.some(pdf => pdf.id === pdfId)] *)
Definition pdfExists (availablePDFs : list PDFDocument.t) (pdfId : string)
  : bool :=
  existsb (fun pdf => (PDFDocument.id pdf =? pdfId)%string) availablePDFs.

(** [chat.pdfIds.filter(pdfId => availablePDFs.some(...)).length], computed
    at lines 103-105 and again at lines 172-174. *)
Definition existingPdfCount (availablePDFs : list PDFDocument.t)
  (chat : Conversation.t) : Z :=
  Js.array_length (filter (pdfExists availablePDFs) (Conversation.pdfIds chat)).

(** [getChatDisplayName] (lines 85-109). *)
Definition getChatDisplayName (availablePDFs : list PDFDocument.t)
  (chat : Conversation.t) : completion string :=
  if negb (Conversation.name chat =? "New Chat")%string then
    Normal (truncateText (Conversation.name chat) 30)
  else
    let existingPdfNames :=
      firstn 2
        (filter Js.truthy
           (map (findPdfName availablePDFs) (Conversation.pdfIds chat))) in
    if Js.array_length existingPdfNames =? 0 then
      Normal "New Chat"
    else if Js.array_length existingPdfNames =? 1 then
      truncateText_asserted (Js.index_undef existingPdfNames 0) 30
    else
      let! firstPdf :=
        truncateText_asserted (Js.index_undef existingPdfNames 0) 15 in
      let! secondPdf :=
        truncateText_asserted (Js.index_undef existingPdfNames 1) 15 in
      let totalExistingPdfs := existingPdfCount availablePDFs chat in
      let additionalCount :=
        if totalExistingPdfs >? 2
        then (" +" ++ Js.int_toString (totalExistingPdfs - 2))%string
        else "" in
      Normal (firstPdf ++ " + " ++ secondPdf ++ additionalCount)%string.

(** [getLastMessage] (lines 111-117). *)
Definition getLastMessage (chat : Conversation.t) : completion string :=
  if Js.array_length (Conversation.messages chat) =? 0 then
    Normal "No messages yet"
  else
    let! lastMessage :=
      Js.deref (Js.index (Conversation.messages chat)
                  (Js.array_length (Conversation.messages chat) - 1)) in
    Normal (truncateText (Message.content lastMessage) 30).

(** What [formatTime] reads besides its argument: the clock behind
    [new Date()] and the host's [toLocaleDateString]. *)
Record Host : Type := mkHost {
  now : Z;
  toLocaleDateString : Date -> string
}.

(** [formatTime] (lines 119-131). *)
Definition formatTime (host : Host) (date : Date) : string :=
  let diff := Js.sub (Js.Int (now host)) (getTime date) in
  let minutes := Js.floor_div diff 60000 in
  let hours := Js.floor_div diff 3600000 in
  let days := Js.floor_div diff 86400000 in
  if Js.lt minutes 1 then "Just now"
  else if Js.lt minutes 60 then (Js.toString minutes ++ "m ago")%string
  else if Js.lt hours 24 then (Js.toString hours ++ "h ago")%string
  else if Js.lt days 7 then (Js.toString days ++ "d ago")%string
  else toLocaleDateString host date.

(** ** What the component renders *)

(** The props of the component (lines 6-12). The two callbacks belong to the
    parent: calling one may throw. *)
Record ChatListProps : Type := mkProps {
  onChatSelect : option Conversation.t -> completion unit;
  selectedChat : option Conversation.t;
  availablePDFs : list PDFDocument.t;
  refreshTrigger : option Js.number;
  onChatDelete : option (string -> completion unit)
}.

(** [selectedChat?.id === chatId] *)
Definition isSelected (props : ChatListProps) (chatId : string) : bool :=
  match selectedChat props with
  | Some c => (Conversation.id c =? chatId)%string
  | None => false
  end.

(** The badge of the meta row (lines 171-191): the count of linked documents
    that exist, or a note that none of the linked ones is left, or nothing. *)
Inductive PdfBadge : Type :=
| PdfCount (n : Z)
| NoPdfsSelected.

Definition chatPdfBadge (availablePDFs : list PDFDocument.t)
  (chat : Conversation.t) : option PdfBadge :=
  let existingPdfCount := existingPdfCount availablePDFs chat in
  if existingPdfCount >? 0 then Some (PdfCount existingPdfCount)
  else if Js.array_length (Conversation.pdfIds chat) >? 0 then Some NoPdfsSelected
  else None.

(** One row of the list (lines 154-201). *)
Record ChatItem : Type := mkItem {
  item_key : string;
  item_selected : bool;
  item_name : string;
  item_preview : string;
  item_time : string;
  item_badge : option PdfBadge
}.

Definition renderChatItem (props : ChatListProps) (host : Host)
  (chat : Conversation.t) : completion ChatItem :=
  let! chatName := getChatDisplayName (availablePDFs props) chat in
  let! preview := getLastMessage chat in
  Normal {| item_key := Conversation.id chat;
            item_selected := isSelected props (Conversation.id chat);
            item_name := chatName;
            item_preview := preview;
            item_time := formatTime host (Conversation.updatedAt chat);
            item_badge := chatPdfBadge (availablePDFs props) chat |}.

(** [chats.map(chat => ...)] where a row may throw. *)
Fixpoint renderChatItems (props : ChatListProps) (host : Host)
  (chats : list Conversation.t) : completion (list ChatItem) :=
  match chats with
  | [] => Normal []
  | chat :: rest =>
      let! item := renderChatItem props host chat in
      let! items := renderChatItems props host rest in
      Normal (item :: items)
  end.

(** The body of the sidebar section (lines 146-204). *)
Inductive ChatListView : Type :=
| EmptyState
| ChatItems (items : list ChatItem).

Definition render (props : ChatListProps) (host : Host)
  (chats : list Conversation.t) : completion ChatListView :=
  if Js.array_length chats =? 0 then Normal EmptyState
  else
    let! items := renderChatItems props host chats in
    Normal (ChatItems items).

(** ** The handlers *)

(** What a handler does to the outside, in the order it does it. [SetChats]
    is a write of the component's [chats] state. *)
Inductive event : Type :=
| StopPropagation
| WindowConfirm (message : string) (answer : bool)
| GetConversations
| DeleteConversation (chatId : string)
| SetChats (next : list Conversation.t)
| OnChatDelete (chatId : string)
| OnChatSelect (conversation : option Conversation.t)
| ConsoleError (message : string) (error : Js.thrown)
| Alert (message : string).

(** The collaborators a handler calls: the confirm dialog with the user's
    answer, and the two calls of the persistence service, each resolving or
    rejecting. *)
Record Services : Type := mkServices {
  confirm : string -> bool;
  getConversations : completion (list Conversation.t);
  deleteConversation : string -> completion unit
}.

(** A handler threads the [chats] state and returns how it completed, the
    final state and the trace of its events. The [await]s are sequential
    within one handler; interleaving with other handlers is not modelled. *)
Definition Handler (A : Type) : Type :=
  list Conversation.t -> completion A * list Conversation.t * list event.

Definition ret {A : Type} (a : A) : Handler A :=
  fun chats => (Normal a, chats, []).

Definition bindH {A B : Type} (c : Handler A) (k : A -> Handler B) : Handler B :=
  fun chats =>
    match c chats with
    | (Normal a, chats1, tr1) =>
        match k a chats1 with
        | (r, chats2, tr2) => (r, chats2, (tr1 ++ tr2)%list)
        end
    | (Throw e, chats1, tr1) => (Throw e, chats1, tr1)
    end.

(** [try { body } catch (error) { handler }] *)
Definition tryCatch {A : Type} (body : Handler A)
  (handler : Js.thrown -> Handler A) : Handler A :=
  fun chats =>
    match body chats with
    | (Normal a, chats1, tr1) => (Normal a, chats1, tr1)
    | (Throw e, chats1, tr1) =>
        match handler e chats1 with
        | (r, chats2, tr2) => (r, chats2, (tr1 ++ tr2)%list)
        end
    end.

(** An outside call: its event, and how it completes. *)
Definition call {A : Type} (ev : event) (result : completion A) : Handler A :=
  fun chats => (result, chats, [ev]).

(** [setChats(update)] with a functional update. *)
Definition setChats (update : list Conversation.t -> list Conversation.t)
  : Handler unit :=
  fun chats => (Normal tt, update chats, [SetChats (update chats)]).

Declare Scope handler_scope.
Delimit Scope handler_scope with handler.

Notation "x <- c ;; k" := (bindH c (fun x => k))
  (at level 61, c at next level, right associativity) : handler_scope.
Notation "c ;; k" := (bindH c (fun _ => k))
  (at level 61, right associativity) : handler_scope.

Local Open Scope handler_scope.

(** [loadChats] (lines 35-42). *)
Definition loadChats (services : Services) : Handler unit :=
  tryCatch
    (loadedChats <- call GetConversations (getConversations services) ;;
     setChats (fun _ => loadedChats))
    (fun error => call (ConsoleError "Error loading chats:" error) (Normal tt)).

(** The effect run on mount (lines 24-26). *)
Definition mountEffect (services : Services) : Handler unit :=
  loadChats services.

(** The effect run when [refreshTrigger] changes (lines 29-33): it reloads
    only when the trigger is truthy. *)
Definition refreshEffect (services : Services) (props : ChatListProps)
  : Handler unit :=
  match refreshTrigger props with
  | Some n => if Js.number_truthy n then loadChats services else ret tt
  | None => ret tt
  end.

(** [handleNewChat] (lines 44-55): [uuid] is what [uuidv4()] returns, and
    [created], [updated] what the two [new Date()] read. *)
Definition handleNewChat (props : ChatListProps) (uuid : string)
  (created updated : Z) : Handler unit :=
  let newChat :=
    {| Conversation.id := uuid;
       Conversation.name := "New Chat";
       Conversation.pdfIds := [];
       Conversation.messages := [];
       Conversation.createdAt := Js.Int created;
       Conversation.updatedAt := Js.Int updated |} in
  call (OnChatSelect (Some newChat)) (onChatSelect props (Some newChat)).

(** The click on a row (lines 157-160). *)
Definition handleChatClick (props : ChatListProps) (chat : Conversation.t)
  : Handler unit :=
  call (OnChatSelect (Some chat)) (onChatSelect props (Some chat)).

Definition confirmDeleteMessage : string :=
  "Are you sure you want to delete this chat? This action cannot be undone.".

(** [handleDeleteChat] (lines 57-78). *)
Definition handleDeleteChat (services : Services) (props : ChatListProps)
  (chatId : string) : Handler unit :=
  call StopPropagation (Normal tt) ;;
  confirmed <- call (WindowConfirm confirmDeleteMessage
                       (confirm services confirmDeleteMessage))
                    (Normal (confirm services confirmDeleteMessage)) ;;
  if (confirmed : bool) then
    tryCatch
      (call (DeleteConversation chatId) (deleteConversation services chatId) ;;
       setChats (filter (fun chat =>
                   negb (Conversation.id chat =? chatId)%string)) ;;
       match onChatDelete props with
       | Some notify => call (OnChatDelete chatId) (notify chatId)
       | None => ret tt
       end ;;
       if isSelected props chatId
       then call (OnChatSelect None) (onChatSelect props None)
       else ret tt)
      (fun error =>
         call (ConsoleError "Error deleting chat:" error) (Normal tt) ;;
         call (Alert "Failed to delete chat. Please try again.") (Normal tt))
  else ret tt.

Local Close Scope handler_scope.

(** ** Reading a run of a handler *)

Definition Run (A : Type) : Type :=
  (completion A * list Conversation.t * list event)%type.

Definition result_of {A : Type} (run : Run A) : completion A := fst (fst run).
Definition chats_of {A : Type} (run : Run A) : list Conversation.t := snd (fst run).
Definition trace_of {A : Type} (run : Run A) : list event := snd run.

(** The persistence deletion was called. *)
Definition calls_delete (trace : list event) : Prop :=
  exists chatId, In (DeleteConversation chatId) trace.

(** The [chats] state was written. *)
Definition writes_chats (trace : list event) : Prop :=
  exists next, In (SetChats next) trace.

(** The parent was told of a deletion. *)
Definition emits_deletion (trace : list event) : Prop :=
  exists chatId, In (OnChatDelete chatId) trace.

(** The parent was told of a selection, or of its clearing. *)
Definition emits_selection (trace : list event) : Prop :=
  exists conversation, In (OnChatSelect conversation) trace.

(** Checks that every persistence deletion of a trace comes after an
    accepted confirmation; [confirmed] tells whether one was seen already. *)
Fixpoint delete_guarded (confirmed : bool) (trace : list event) : bool :=
  match trace with
  | [] => true
  | WindowConfirm _ answer :: rest => delete_guarded (confirmed || answer) rest
  | DeleteConversation _ :: rest => confirmed && delete_guarded confirmed rest
  | _ :: rest => delete_guarded confirmed rest
  end.

(** The persistence deletions of a trace: the ids asked for, in order. *)
Fixpoint deletions (trace : list event) : list string :=
  match trace with
  | [] => []
  | DeleteConversation chatId :: rest => chatId :: deletions rest
  | _ :: rest => deletions rest
  end.

(** A row shows a chat: its key is the chat's id and each of its texts is
    what the helper for it derives from the chat. *)
Definition shows (props : ChatListProps) (host : Host)
  (chat : Conversation.t) (item : ChatItem) : Prop :=
  item_key item = Conversation.id chat /\
  item_selected item = isSelected props (Conversation.id chat) /\
  getChatDisplayName (availablePDFs props) chat = Normal (item_name item) /\
  getLastMessage chat = Normal (item_preview item) /\
  item_time item = formatTime host (Conversation.updatedAt chat) /\
  item_badge item = chatPdfBadge (availablePDFs props) chat.

(** ** The derivations in the words of the specification *)

(** The linked documents that exist in [availablePDFs], in the order of the
    links: each link contributes the document it finds, a dangling link
    nothing. *)
Definition linkedDocuments (availablePDFs : list PDFDocument.t)
  (chat : Conversation.t) : list PDFDocument.t :=
  flat_map
    (fun pdfId =>
       match find (fun pdf => (PDFDocument.id pdf =? pdfId)%string) availablePDFs with
       | Some pdf => [pdf]
       | None => []
       end)
    (Conversation.pdfIds chat).

(** What [getChatDisplayName] composes from the names it kept and the count
    it took, with the cuts that [truncateText] makes. *)
Definition composedName (names : list string) (total : Z) : string :=
  match names with
  | [] => "New Chat"
  | [only] => truncateText only 30
  | first :: second :: _ =>
      (truncateText first 15 ++ " + " ++ truncateText second 15 ++
       (if total >? 2 then " +" ++ Js.int_toString (total - 2) else ""))%string
  end.

(** The first [n] characters of [s]; all of [s] when it has fewer. *)
Fixpoint string_take (n : nat) (s : string) : string :=
  match n, s with
  | S n', String c s' => String c (string_take n' s')
  | _, _ => EmptyString
  end.

(** A text truncated to [n] characters: the text itself when it has at most
    [n] characters, and otherwise its first [n - 3] characters followed by
    three dots, which makes [n] characters in all. *)
Definition spec_truncated (n : nat) (text : string) : string :=
  if Nat.leb (String.length text) n then text
  else (string_take (n - 3) text ++ "...")%string.

(** The composition rule of the auto-generated name: from the names to show
    and the total that the [+k] suffix counts from. *)
Definition spec_autoName (names : list string) (total : Z) : string :=
  match names with
  | [] => "New Chat"
  | [only] => spec_truncated 30 only
  | first :: second :: _ =>
      (spec_truncated 15 first ++ " + " ++ spec_truncated 15 second ++
       (if total >? 2 then " +" ++ Js.int_toString (total - 2) else ""))%string
  end.

(** The display name as the specification words it: composed from all the
    linked documents that exist. *)
Definition spec_displayName (availablePDFs : list PDFDocument.t)
  (chat : Conversation.t) : string :=
  if (Conversation.name chat =? "New Chat")%string then
    let docs := linkedDocuments availablePDFs chat in
    spec_autoName (map PDFDocument.name docs) (Js.array_length docs)
  else spec_truncated 30 (Conversation.name chat).

(** The linked documents that exist and have a name to show. *)
Definition namedDocuments (availablePDFs : list PDFDocument.t)
  (chat : Conversation.t) : list PDFDocument.t :=
  filter (fun pdf => negb (PDFDocument.name pdf =? "")%string)
    (linkedDocuments availablePDFs chat).

(** The display name with the names taken from the linked documents that
    exist and have a name to show, and the [+k] suffix counted from all the
    links whose document exists. *)
Definition spec_shownName (availablePDFs : list PDFDocument.t)
  (chat : Conversation.t) : string :=
  if (Conversation.name chat =? "New Chat")%string then
    spec_autoName
      (map PDFDocument.name (namedDocuments availablePDFs chat))
      (Js.array_length (linkedDocuments availablePDFs chat))
  else spec_truncated 30 (Conversation.name chat).



(** A conversation with its dangling links removed. *)
Definition withoutDangling (availablePDFs : list PDFDocument.t)
  (chat : Conversation.t) : Conversation.t :=
  {| Conversation.id := Conversation.id chat;
     Conversation.name := Conversation.name chat;
     Conversation.pdfIds :=
       filter (pdfExists availablePDFs) (Conversation.pdfIds chat);
     Conversation.messages := Conversation.messages chat;
     Conversation.createdAt := Conversation.createdAt chat;
     Conversation.updatedAt := Conversation.updatedAt chat |}.

(** ** Proof automation for runs *)

(** Unfolds a handler down to the run it computes. *)
Ltac run_handler :=
  unfold result_of, chats_of, trace_of, refreshEffect, mountEffect,
    handleDeleteChat, loadChats, handleNewChat, handleChatClick,
    bindH, tryCatch, call, setChats, ret; simpl.

(** Splits on the next answer of the outside: the user, the persistence
    service or a callback of the parent. *)
Ltac run_case :=
  match goal with
  | |- context [confirm ?s ?m] => destruct (confirm s m) eqn:?
  | |- context [deleteConversation ?s ?c] =>
      destruct (deleteConversation s c) eqn:?
  | |- context [getConversations ?s] => destruct (getConversations s) eqn:?
  | |- context [onChatDelete ?p] => destruct (onChatDelete p) eqn:?
  | |- context [isSelected ?p ?c] => destruct (isSelected p c) eqn:?
  | |- context [onChatSelect ?p ?c] => destruct (onChatSelect p c) eqn:?
  | |- context [match ?x with Normal _ => _ | Throw _ => _ end] =>
      destruct x eqn:?
  end; simpl.


(* ===================================================================== *)
(** * Part II: properties *)
(* ===================================================================== *)

(** ** Strings *)

Lemma string_length_append (a b : string) :
  String.length (a ++ b) = (String.length a + String.length b)%nat.
Proof.
  induction a as [|c a IH]; simpl; [reflexivity | now rewrite IH].
Qed.

Lemma js_length_append (a b : string) :
  Js.length (a ++ b) = Js.length a + Js.length b.
Proof.
  unfold Js.length. rewrite string_length_append. lia.
Qed.

(** The first [n] characters of [s] and what follows them. *)
Lemma substring_prefix (s : string) (n : nat) :
  (n <= String.length s)%nat ->
  exists rest,
    s = (String.substring 0 n s ++ rest)%string /\
    String.length (String.substring 0 n s) = n.
Proof.
  revert n. induction s as [|c s IH]; intros [|n] Hn; simpl in *.
  - exists ""%string. split; reflexivity.
  - lia.
  - exists (String c s). split; reflexivity.
  - destruct (IH n) as [rest [Heq Hlen]]; [lia|].
    exists rest. split; [now rewrite <- Heq | now rewrite Hlen].
Qed.

(** [text.substring(0, e)] keeps the first [e] characters, none when [e] is
    negative and all of them when [e] is past the end. *)
Lemma js_substring_prefix (text : string) (e : Z) :
  exists rest,
    text = (Js.substring text 0 e ++ rest)%string /\
    Js.length (Js.substring text 0 e) = Z.min (Z.max e 0) (Js.length text).
Proof.
  unfold Js.substring.
  assert (Hlen : 0 <= Js.length text) by (unfold Js.length; lia).
  set (len := Js.length text) in *.
  replace (Z.min (Z.max 0 0) len) with 0 by lia.
  set (fe := Z.min (Z.max e 0) len).
  assert (Hfe : 0 <= fe <= len) by (unfold fe; lia).
  replace (Z.min 0 fe) with 0 by lia.
  replace (Z.max 0 fe - 0) with fe by lia.
  change (Z.to_nat 0) with 0%nat.
  destruct (substring_prefix text (Z.to_nat fe)) as [rest [Heq Hl]].
  - unfold len, Js.length in Hfe. lia.
  - exists rest. split; [exact Heq|].
    unfold Js.length at 1. rewrite Hl. lia.
Qed.

(** ** [truncateText] *)

Lemma truncateText_short (text : string) (maxLength : Z) :
  Js.length text <= maxLength -> truncateText text maxLength = text.
Proof.
  intros H. unfold truncateText.
  destruct (Z.leb_spec (Js.length text) maxLength); [reflexivity | lia].
Qed.

Lemma truncateText_long (text : string) (maxLength : Z) :
  maxLength < Js.length text ->
  truncateText text maxLength =
  (Js.substring text 0 (maxLength - 3) ++ "...")%string.
Proof.
  intros H. unfold truncateText.
  destruct (Z.leb_spec (Js.length text) maxLength); [lia | reflexivity].
Qed.

Lemma substring_take (n : nat) (s : string) :
  String.substring 0 n s = string_take n s.
Proof.
  revert n. induction s as [|c s IH]; intros [|n]; simpl;
    try reflexivity. now rewrite IH.
Qed.

Lemma string_take_length (n : nat) (s : string) :
  (n <= String.length s)%nat -> String.length (string_take n s) = n.
Proof.
  revert n. induction s as [|c s IH]; intros [|n] H; simpl in *;
    try reflexivity; try lia. now rewrite IH by lia.
Qed.

(** What [spec_truncated] yields: a text that fits is unchanged, and a
    longer one is cut to exactly [n] characters, the last three of them
    dots, as soon as [n] leaves room for the dots. *)
Lemma spec_truncated_fits (n : nat) (text : string) :
  ((String.length text <= n)%nat -> spec_truncated n text = text) /\
  ((n < String.length text)%nat -> (3 <= n)%nat ->
   String.length (spec_truncated n text) = n /\
   exists kept, spec_truncated n text = (kept ++ "...")%string).
Proof.
  unfold spec_truncated. split.
  - intros H. apply Nat.leb_le in H. now rewrite H.
  - intros H H3. destruct (Nat.leb_spec (String.length text) n); [lia|].
    split; [|now eexists].
    rewrite string_length_append, string_take_length by lia. simpl. lia.
Qed.

(** On a limit that is a natural number, [truncateText] makes exactly the
    cut of [spec_truncated]. *)
Lemma truncateText_truncated (n : nat) (text : string) :
  truncateText text (Z.of_nat n) = spec_truncated n text.
Proof.
  unfold truncateText, spec_truncated, Js.length.
  destruct (Nat.leb_spec (String.length text) n) as [H|H];
    destruct (Z.leb_spec (Z.of_nat (String.length text)) (Z.of_nat n));
    try lia; [reflexivity|].
  f_equal. unfold Js.substring, Js.length.
  replace (Z.min (Z.max 0 0) (Z.of_nat (String.length text))) with 0 by lia.
  set (fe := Z.min (Z.max (Z.of_nat n - 3) 0) (Z.of_nat (String.length text))).
  replace (Z.min 0 fe) with 0 by lia.
  replace (Z.to_nat (Z.max 0 fe - 0)) with (n - 3)%nat by lia.
  apply substring_take.
Qed.

Lemma truncateText_30 (text : string) :
  truncateText text 30 = spec_truncated 30 text.
Proof. exact (truncateText_truncated 30 text). Qed.

Lemma truncateText_15 (text : string) :
  truncateText text 15 = spec_truncated 15 text.
Proof. exact (truncateText_truncated 15 text). Qed.

(** C9. [truncateText] returns a text of at most [maxLength] characters
    unchanged; a longer text is cut to a prefix followed by ["..."], of
    length exactly [maxLength] when [maxLength] is at least 3, so that the
    result never exceeds [maxLength] then; below 3 the prefix is empty and
    the result is the three dots alone, longer than [maxLength]. *)
Theorem truncateText_spec (text : string) (maxLength : Z) :
  (Js.length text <= maxLength -> truncateText text maxLength = text) /\
  (maxLength < Js.length text ->
     (exists kept dropped,
        text = (kept ++ dropped)%string /\
        Js.length kept = Z.max (maxLength - 3) 0 /\
        truncateText text maxLength = (kept ++ "...")%string) /\
     (3 <= maxLength -> Js.length (truncateText text maxLength) = maxLength) /\
     (maxLength < 3 ->
        truncateText text maxLength = "..." /\
        maxLength < Js.length (truncateText text maxLength))) /\
  (3 <= maxLength -> Js.length (truncateText text maxLength) <= maxLength).
Proof.
  assert (Hlong : maxLength < Js.length text ->
    exists kept dropped,
      text = (kept ++ dropped)%string /\
      Js.length kept = Z.max (maxLength - 3) 0 /\
      truncateText text maxLength = (kept ++ "...")%string).
  { intros H. rewrite (truncateText_long _ _ H).
    destruct (js_substring_prefix text (maxLength - 3)) as [rest [Heq Hl]].
    exists (Js.substring text 0 (maxLength - 3)), rest.
    assert (0 <= Js.length text) by (unfold Js.length; lia).
    split; [exact Heq|]. split; [lia | reflexivity]. }
  split; [apply truncateText_short|]. split.
  - intros H. destruct (Hlong H) as [kept [dropped [Htext [Hk Hres]]]].
    split; [now exists kept, dropped|]. split.
    + intros H3. rewrite Hres, js_length_append, Hk.
      change (Js.length "...") with 3. lia.
    + intros H3. assert (kept = ""%string) as ->.
      { destruct kept; [reflexivity|].
        unfold Js.length in Hk. simpl String.length in Hk. lia. }
      rewrite Hres. simpl. split; [reflexivity|].
      change (Js.length "...") with 3. lia.
  - intros H3. destruct (Z.le_gt_cases (Js.length text) maxLength) as [Hs|Hl].
    + now rewrite truncateText_short.
    + destruct (Hlong Hl) as [kept [dropped [_ [Hk Hres]]]].
      rewrite Hres, js_length_append, Hk.
      change (Js.length "...") with 3. lia.
Qed.

Lemma truncateText_spec_witness :
  truncateText "Torts" 30 = "Torts" /\
  Js.length (truncateText "Constitutional Law Outline" 15) = 15 /\
  truncateText "Torts" 2 = "...".
Proof.
  split; [|split].
  - destruct (truncateText_spec "Torts" 30) as [Hshort _].
    apply Hshort. unfold Js.length. simpl. lia.
  - destruct (truncateText_spec "Constitutional Law Outline" 15)
      as [_ [Hlong _]].
    destruct Hlong as [_ [Hexact _]]; [unfold Js.length; simpl; lia|].
    apply Hexact. lia.
  - destruct (truncateText_spec "Torts" 2) as [_ [Hlong _]].
    destruct Hlong as [_ [_ Hedge]]; [unfold Js.length; simpl; lia|].
    apply Hedge. lia.
Defined.

(** ** Arrays *)

Lemma index_last {A : Type} (earlier : list A) (last : A) :
  Js.index (earlier ++ [last]) (Js.array_length (earlier ++ [last]) - 1)
  = Some last.
Proof.
  unfold Js.index, Js.array_length. rewrite length_app. simpl List.length.
  destruct (Z.ltb_spec (Z.of_nat (List.length earlier + 1) - 1) 0); [lia|].
  replace (Z.to_nat (Z.of_nat (List.length earlier + 1) - 1))
    with (List.length earlier + 0)%nat by lia.
  rewrite nth_error_app2 by lia.
  now replace (List.length earlier + 0 - List.length earlier)%nat with 0%nat by lia.
Qed.

Lemma array_length_zero {A : Type} (a : list A) :
  Js.array_length a = 0 <-> a = [].
Proof.
  unfold Js.array_length. destruct a; simpl; split; intros H;
    try reflexivity; try discriminate; lia.
Qed.

(** The unguarded reads do throw: the guards of the helpers are what keeps
    them from it. *)
Example read_past_the_end_throws :
  Js.deref (Js.index (@nil Message.t) (Js.array_length (@nil Message.t) - 1))
  = Throw TypeError /\
  truncateText_asserted (Js.index_undef [Some "Torts.pdf"] 1) 15
  = Throw TypeError.
Proof. split; reflexivity. Qed.

(** ** [getLastMessage] *)

(** C7. The preview of a conversation without messages is
    ['No messages yet']; otherwise it is the content of the last message of
    the list, truncated to 30 characters: the content itself when it has at
    most 30 characters, and otherwise its first 27 characters followed by
    three dots. *)
Theorem getLastMessage_spec (chat : Conversation.t) :
  (Conversation.messages chat = [] ->
   getLastMessage chat = Normal "No messages yet") /\
  (forall earlier last,
     Conversation.messages chat = (earlier ++ [last])%list ->
     getLastMessage chat = Normal (spec_truncated 30 (Message.content last)) /\
     ((String.length (Message.content last) <= 30)%nat ->
      getLastMessage chat = Normal (Message.content last)) /\
     ((30 < String.length (Message.content last))%nat ->
      getLastMessage chat
      = Normal (string_take 27 (Message.content last) ++ "...")%string)).
Proof.
  unfold getLastMessage. split.
  - intros ->. reflexivity.
  - intros earlier last ->.
    destruct (Z.eqb_spec (Js.array_length (earlier ++ [last])) 0) as [H|_].
    + apply array_length_zero in H. now destruct earlier.
    + rewrite index_last. cbn [Js.deref Js.bind].
      rewrite truncateText_30. unfold spec_truncated.
      split; [reflexivity|]. split; intros Hlen.
      * apply Nat.leb_le in Hlen. now rewrite Hlen.
      * destruct (Nat.leb_spec (String.length (Message.content last)) 30);
          [lia | reflexivity].
Qed.

Lemma getLastMessage_spec_witness :
  getLastMessage
    (Conversation.mk "c1" "Exam prep" [] [] (Js.Int 0) (Js.Int 0))
  = Normal "No messages yet" /\
  getLastMessage
    (Conversation.mk "c1" "Exam prep" []
       [Message.mk "What is consideration?";
        Message.mk "Consideration is a bargained-for exchange of value."]
       (Js.Int 0) (Js.Int 0))
  = Normal "Consideration is a bargaine..." /\
  getLastMessage
    (Conversation.mk "c1" "Exam prep" []
       [Message.mk "Consideration is a bargained-for exchange of value.";
        Message.mk "What is consideration?"]
       (Js.Int 0) (Js.Int 0))
  = Normal "What is consideration?".
Proof.
  split; [|split].
  - apply (proj1 (getLastMessage_spec _)). reflexivity.
  - destruct (proj2 (getLastMessage_spec
        (Conversation.mk "c1" "Exam prep" []
           [Message.mk "What is consideration?";
            Message.mk "Consideration is a bargained-for exchange of value."]
           (Js.Int 0) (Js.Int 0)))
        [Message.mk "What is consideration?"]
        (Message.mk "Consideration is a bargained-for exchange of value.")
        eq_refl) as [_ [_ Hcut]].
    apply Hcut. simpl. lia.
  - destruct (proj2 (getLastMessage_spec
        (Conversation.mk "c1" "Exam prep" []
           [Message.mk "Consideration is a bargained-for exchange of value.";
            Message.mk "What is consideration?"]
           (Js.Int 0) (Js.Int 0)))
        [Message.mk "Consideration is a bargained-for exchange of value."]
        (Message.mk "What is consideration?")
        eq_refl) as [_ [Hfits _]].
    apply Hfits. simpl. lia.
Defined.

(** ** [getChatDisplayName] *)

Lemma existsb_find {A : Type} (f : A -> bool) (l : list A) :
  existsb f l = match find f l with Some _ => true | None => false end.
Proof.
  induction l as [|a l IH]; simpl; [reflexivity|].
  destruct (f a); [reflexivity | exact IH].
Qed.

(** The names that survive [filter(Boolean)] are those of the linked
    documents that exist and have a non-empty name, in link order. *)
Lemma truthy_names (availablePDFs : list PDFDocument.t) (chat : Conversation.t) :
  filter Js.truthy (map (findPdfName availablePDFs) (Conversation.pdfIds chat))
  = map (fun pdf => Some (PDFDocument.name pdf))
      (namedDocuments availablePDFs chat).
Proof.
  unfold namedDocuments, linkedDocuments.
  induction (Conversation.pdfIds chat) as [|pdfId ids IH]; simpl; [reflexivity|].
  replace (findPdfName availablePDFs pdfId)
    with (option_map PDFDocument.name
            (find (fun pdf => (PDFDocument.id pdf =? pdfId)%string) availablePDFs))
    by reflexivity.
  destruct (find (fun pdf => (PDFDocument.id pdf =? pdfId)%string) availablePDFs)
    as [pdf|]; simpl; [|exact IH].
  destruct (PDFDocument.name pdf =? "")%string; simpl; [exact IH|].
  now rewrite IH.
Qed.

(** The count taken with [some] is the number of linked documents that
    exist, whatever their names. *)
Lemma existingPdfCount_linked (availablePDFs : list PDFDocument.t)
  (chat : Conversation.t) :
  existingPdfCount availablePDFs chat
  = Js.array_length (linkedDocuments availablePDFs chat).
Proof.
  unfold existingPdfCount, linkedDocuments, Js.array_length. f_equal.
  induction (Conversation.pdfIds chat) as [|pdfId ids IH]; simpl; [reflexivity|].
  replace (pdfExists availablePDFs pdfId)
    with (existsb (fun pdf => (PDFDocument.id pdf =? pdfId)%string) availablePDFs)
    by reflexivity.
  rewrite existsb_find.
  destruct (find (fun pdf => (PDFDocument.id pdf =? pdfId)%string) availablePDFs);
    simpl; now rewrite IH.
Qed.

Lemma getChatDisplayName_named (availablePDFs : list PDFDocument.t)
  (chat : Conversation.t) :
  getChatDisplayName availablePDFs chat =
  Normal
    (if (Conversation.name chat =? "New Chat")%string
     then composedName
            (map PDFDocument.name (namedDocuments availablePDFs chat))
            (Js.array_length (linkedDocuments availablePDFs chat))
     else truncateText (Conversation.name chat) 30).
Proof.
  unfold getChatDisplayName.
  destruct (Conversation.name chat =? "New Chat")%string; simpl; [|reflexivity].
  rewrite truthy_names, existingPdfCount_linked.
  destruct (namedDocuments availablePDFs chat) as [|d1 [|d2 more]];
    reflexivity.
Qed.

Lemma filter_all {A : Type} (f : A -> bool) (l : list A) :
  (forall a, In a l -> f a = true) -> filter f l = l.
Proof.
  induction l as [|a l IH]; simpl; intros H; [reflexivity|].
  rewrite (H a) by now left. f_equal. apply IH. intros b Hb. apply H. now right.
Qed.

Lemma composedName_spec (names : list string) (total : Z) :
  composedName names total = spec_autoName names total.
Proof.
  destruct names as [|first [|second more]]; simpl;
    now rewrite ?truncateText_30, ?truncateText_15.
Qed.

Lemma getChatDisplayName_shown (availablePDFs : list PDFDocument.t)
  (chat : Conversation.t) :
  getChatDisplayName availablePDFs chat
  = Normal (spec_shownName availablePDFs chat).
Proof.
  rewrite getChatDisplayName_named. unfold spec_shownName.
  now rewrite composedName_spec, truncateText_30.
Qed.

(** C1 (amended). A conversation not named ['New Chat'] shows its own name
    truncated to 30 characters. One named ['New Chat'] is named after its
    links whose document exists in [availablePDFs] and has a non-empty
    name: ['New Chat'] when there is none, the name truncated to 30 when
    there is one, and otherwise the first two, each truncated to 15 and
    joined by [' + '], followed by [' +k'] exactly when the number of links
    whose document exists, empty-named ones included, exceeds 2, with [k]
    that number minus 2. Truncated to [n] means unchanged when at most [n]
    characters long, and otherwise the first [n - 3] characters followed by
    three dots. When no linked document that exists has an empty name, this
    is the name composed from all of them. *)
Theorem getChatDisplayName_spec (availablePDFs : list PDFDocument.t)
  (chat : Conversation.t) :
  (Conversation.name chat <> "New Chat" ->
   getChatDisplayName availablePDFs chat
   = Normal (spec_truncated 30 (Conversation.name chat))) /\
  (Conversation.name chat = "New Chat" ->
   let names := map PDFDocument.name (namedDocuments availablePDFs chat) in
   let total := Js.array_length (linkedDocuments availablePDFs chat) in
   (names = [] -> getChatDisplayName availablePDFs chat = Normal "New Chat") /\
   (forall only, names = [only] ->
      getChatDisplayName availablePDFs chat = Normal (spec_truncated 30 only)) /\
   (forall first second more, names = first :: second :: more ->
      getChatDisplayName availablePDFs chat
      = Normal (spec_truncated 15 first ++ " + " ++ spec_truncated 15 second ++
                (if total >? 2 then " +" ++ Js.int_toString (total - 2) else ""))%string)) /\
  ((forall pdf, In pdf (linkedDocuments availablePDFs chat) ->
                PDFDocument.name pdf <> "") ->
   getChatDisplayName availablePDFs chat
   = Normal (spec_displayName availablePDFs chat)).
Proof.
  rewrite getChatDisplayName_shown. unfold spec_shownName. split; [|split].
  - intros H. apply String.eqb_neq in H. now rewrite H.
  - intros H. apply String.eqb_eq in H. rewrite H. cbv zeta.
    split; [|split].
    + intros ->. reflexivity.
    + intros only ->. reflexivity.
    + intros first second more ->. reflexivity.
  - intros H. unfold spec_displayName, namedDocuments.
    rewrite filter_all; [reflexivity|].
    intros pdf Hin. apply negb_true_iff, String.eqb_neq. now apply H.
Qed.

Lemma getChatDisplayName_spec_witness :
  getChatDisplayName
    [PDFDocument.mk "p1" "Contracts Outline Fall.pdf";
     PDFDocument.mk "p2" "Constitutional Law.pdf";
     PDFDocument.mk "p3" "Evidence.pdf"]
    (Conversation.mk "c1" "New Chat" ["p1"; "gone"; "p2"; "p3"] []
       (Js.Int 0) (Js.Int 0))
  = Normal "Contracts Ou... + Constitution... +1" /\
  getChatDisplayName
    [PDFDocument.mk "p1" "Constitutional Law Outline for the spring term.pdf"]
    (Conversation.mk "c1" "New Chat" ["p1"] [] (Js.Int 0) (Js.Int 0))
  = Normal "Constitutional Law Outline ..." /\
  getChatDisplayName []
    (Conversation.mk "c1" "Constitutional Law Outline for the spring term"
       [] [] (Js.Int 0) (Js.Int 0))
  = Normal "Constitutional Law Outline ...".
Proof.
  split; [|split].
  - destruct (getChatDisplayName_spec
      [PDFDocument.mk "p1" "Contracts Outline Fall.pdf";
       PDFDocument.mk "p2" "Constitutional Law.pdf";
       PDFDocument.mk "p3" "Evidence.pdf"]
      (Conversation.mk "c1" "New Chat" ["p1"; "gone"; "p2"; "p3"] []
         (Js.Int 0) (Js.Int 0))) as [_ [Hauto _]].
    destruct (Hauto eq_refl) as [_ [_ Hmany]].
    exact (Hmany "Contracts Outline Fall.pdf" "Constitutional Law.pdf"
             ["Evidence.pdf"] eq_refl).
  - destruct (getChatDisplayName_spec
      [PDFDocument.mk "p1" "Constitutional Law Outline for the spring term.pdf"]
      (Conversation.mk "c1" "New Chat" ["p1"] [] (Js.Int 0) (Js.Int 0)))
      as [_ [Hauto _]].
    destruct (Hauto eq_refl) as [_ [Hone _]].
    exact (Hone "Constitutional Law Outline for the spring term.pdf" eq_refl).
  - destruct (getChatDisplayName_spec []
      (Conversation.mk "c1" "Constitutional Law Outline for the spring term"
         [] [] (Js.Int 0) (Js.Int 0))) as [Hown _].
    apply Hown. discriminate.
Defined.

(** C1 (as stated) fails: a linked document that exists but has an empty
    name is dropped by [filter(Boolean)], so a ['New Chat'] conversation
    with that one document shows ['New Chat'], not the document's (empty)
    name. *)
Lemma getChatDisplayName_blank_name_counterexample :
  linkedDocuments [PDFDocument.mk "p1" ""]
    (Conversation.mk "c1" "New Chat" ["p1"] [] (Js.Int 0) (Js.Int 0))
  = [PDFDocument.mk "p1" ""] /\
  spec_displayName [PDFDocument.mk "p1" ""]
    (Conversation.mk "c1" "New Chat" ["p1"] [] (Js.Int 0) (Js.Int 0))
  = "" /\
  getChatDisplayName [PDFDocument.mk "p1" ""]
    (Conversation.mk "c1" "New Chat" ["p1"] [] (Js.Int 0) (Js.Int 0))
  = Normal "New Chat" /\
  getChatDisplayName [PDFDocument.mk "p1" ""]
    (Conversation.mk "c1" "New Chat" ["p1"] [] (Js.Int 0) (Js.Int 0))
  <> Normal
       (spec_displayName [PDFDocument.mk "p1" ""]
          (Conversation.mk "c1" "New Chat" ["p1"] [] (Js.Int 0) (Js.Int 0))).
Proof.
  repeat split. discriminate.
Qed.

Lemma getLastMessage_cases (chat : Conversation.t) :
  getLastMessage chat = Normal "No messages yet" \/
  exists last, In last (Conversation.messages chat) /\
    getLastMessage chat = Normal (truncateText (Message.content last) 30).
Proof.
  unfold getLastMessage.
  destruct (Conversation.messages chat) as [|m ms] eqn:E; [now left|].
  destruct (@exists_last _ (m :: ms)) as [earlier [last Heq]]; [discriminate|].
  right. exists last. rewrite Heq. split.
  - apply in_or_app. right. now left.
  - destruct (Z.eqb_spec (Js.array_length (earlier ++ [last])) 0) as [H|_].
    + apply array_length_zero in H. now destruct earlier.
    + now rewrite index_last.
Qed.

(** C10. The partial reads of the helpers are guarded: neither
    [getChatDisplayName] nor [getLastMessage] ever throws, whatever the
    conversation and the available documents. *)
Theorem derivations_read_no_missing_element
  (availablePDFs : list PDFDocument.t) (chat : Conversation.t) :
  (exists shown, getChatDisplayName availablePDFs chat = Normal shown) /\
  (exists shown, getLastMessage chat = Normal shown).
Proof.
  split.
  - rewrite getChatDisplayName_named. eexists. reflexivity.
  - destruct (getLastMessage_cases chat) as [H|[last [_ H]]];
      rewrite H; eexists; reflexivity.
Qed.

(** ** Dangling links *)

Lemma linkedDocuments_withoutDangling (availablePDFs : list PDFDocument.t)
  (chat : Conversation.t) :
  linkedDocuments availablePDFs (withoutDangling availablePDFs chat)
  = linkedDocuments availablePDFs chat.
Proof.
  unfold linkedDocuments, withoutDangling. simpl.
  induction (Conversation.pdfIds chat) as [|pdfId ids IH]; simpl; [reflexivity|].
  replace (pdfExists availablePDFs pdfId)
    with (existsb (fun pdf => (PDFDocument.id pdf =? pdfId)%string) availablePDFs)
    by reflexivity.
  rewrite existsb_find.
  destruct (find (fun pdf => (PDFDocument.id pdf =? pdfId)%string) availablePDFs)
    eqn:E; simpl; [rewrite E; simpl; now rewrite IH | exact IH].
Qed.

Lemma getChatDisplayName_withoutDangling (availablePDFs : list PDFDocument.t)
  (chat : Conversation.t) :
  getChatDisplayName availablePDFs (withoutDangling availablePDFs chat)
  = getChatDisplayName availablePDFs chat.
Proof.
  rewrite !getChatDisplayName_named. unfold namedDocuments.
  now rewrite linkedDocuments_withoutDangling.
Qed.

Lemma existingPdfCount_withoutDangling (availablePDFs : list PDFDocument.t)
  (chat : Conversation.t) :
  existingPdfCount availablePDFs (withoutDangling availablePDFs chat)
  = existingPdfCount availablePDFs chat.
Proof.
  now rewrite !existingPdfCount_linked, linkedDocuments_withoutDangling.
Qed.

Lemma pdfIds_withoutDangling (availablePDFs : list PDFDocument.t)
  (chat : Conversation.t) :
  Js.array_length (Conversation.pdfIds (withoutDangling availablePDFs chat))
  = existingPdfCount availablePDFs chat.
Proof. reflexivity. Qed.

(** C6 (amended). Dangling links contribute nothing to the display name,
    and the displayed count counts only the linked documents that exist:
    removing the dangling links changes neither. The badge sees them in one
    case only: when no linked document exists, a conversation that still
    has links shows ['No PDFs selected'], and one without links shows no
    badge. *)
Theorem dangling_links_spec (availablePDFs : list PDFDocument.t)
  (chat : Conversation.t) :
  getChatDisplayName availablePDFs (withoutDangling availablePDFs chat)
  = getChatDisplayName availablePDFs chat /\
  existingPdfCount availablePDFs chat
  = Js.array_length (linkedDocuments availablePDFs chat) /\
  (existingPdfCount availablePDFs chat > 0 ->
   chatPdfBadge availablePDFs chat
   = Some (PdfCount (existingPdfCount availablePDFs chat)) /\
   chatPdfBadge availablePDFs (withoutDangling availablePDFs chat)
   = chatPdfBadge availablePDFs chat) /\
  (existingPdfCount availablePDFs chat = 0 ->
   chatPdfBadge availablePDFs (withoutDangling availablePDFs chat) = None /\
   chatPdfBadge availablePDFs chat
   = if Js.array_length (Conversation.pdfIds chat) >? 0
     then Some NoPdfsSelected else None).
Proof.
  split; [apply getChatDisplayName_withoutDangling|].
  split; [apply existingPdfCount_linked|].
  unfold chatPdfBadge.
  rewrite existingPdfCount_withoutDangling, pdfIds_withoutDangling.
  split; intros H.
  - destruct (Z.gtb_spec (existingPdfCount availablePDFs chat) 0); [|lia].
    split; reflexivity.
  - rewrite H. simpl. split; reflexivity.
Qed.

Lemma dangling_links_spec_witness :
  chatPdfBadge [PDFDocument.mk "p1" "Torts.pdf"]
    (Conversation.mk "c1" "New Chat" ["gone"; "p1"] [] (Js.Int 0) (Js.Int 0))
  = Some (PdfCount 1) /\
  chatPdfBadge [PDFDocument.mk "p1" "Torts.pdf"]
    (Conversation.mk "c1" "New Chat" ["gone"] [] (Js.Int 0) (Js.Int 0))
  = Some NoPdfsSelected.
Proof.
  split.
  - destruct (dangling_links_spec [PDFDocument.mk "p1" "Torts.pdf"]
      (Conversation.mk "c1" "New Chat" ["gone"; "p1"] [] (Js.Int 0) (Js.Int 0)))
      as [_ [_ [Hsome _]]].
    destruct Hsome as [Hbadge _]; [vm_compute; reflexivity | exact Hbadge].
  - destruct (dangling_links_spec [PDFDocument.mk "p1" "Torts.pdf"]
      (Conversation.mk "c1" "New Chat" ["gone"] [] (Js.Int 0) (Js.Int 0)))
      as [_ [_ [_ Hnone]]].
    destruct Hnone as [_ Hbadge]; [reflexivity | exact Hbadge].
Defined.

(** C6 (as stated) fails: the badge is a derivation that does not ignore
    dangling links. With its only link dangling a conversation shows
    ['No PDFs selected']; with the link removed it shows no badge. *)
Lemma dangling_link_badge_counterexample :
  chatPdfBadge []
    (Conversation.mk "c1" "New Chat" ["gone"] [] (Js.Int 0) (Js.Int 0))
  = Some NoPdfsSelected /\
  chatPdfBadge []
    (withoutDangling []
       (Conversation.mk "c1" "New Chat" ["gone"] [] (Js.Int 0) (Js.Int 0)))
  = None /\
  chatPdfBadge []
    (Conversation.mk "c1" "New Chat" ["gone"] [] (Js.Int 0) (Js.Int 0))
  <> chatPdfBadge []
       (withoutDangling []
          (Conversation.mk "c1" "New Chat" ["gone"] [] (Js.Int 0) (Js.Int 0))).
Proof.
  repeat split. discriminate.
Qed.

(** ** [formatTime] *)

(** C2. With [diff] the milliseconds from the date to now, [formatTime]
    gives ['Just now'] under one minute, the whole minutes with ['m ago']
    under 60 minutes, the whole hours with ['h ago'] under 24 hours, the
    whole days with ['d ago'] under 7 days, and the locale date string
    otherwise, which is also what an invalid date gets. *)
Theorem formatTime_buckets (host : Host) :
  (forall t : Z,
     let diff := now host - t in
     (diff < 60000 -> formatTime host (Js.Int t) = "Just now") /\
     (60000 <= diff < 3600000 ->
      formatTime host (Js.Int t)
      = (Js.int_toString (diff / 60000) ++ "m ago")%string) /\
     (3600000 <= diff < 86400000 ->
      formatTime host (Js.Int t)
      = (Js.int_toString (diff / 3600000) ++ "h ago")%string) /\
     (86400000 <= diff < 604800000 ->
      formatTime host (Js.Int t)
      = (Js.int_toString (diff / 86400000) ++ "d ago")%string) /\
     (604800000 <= diff ->
      formatTime host (Js.Int t) = toLocaleDateString host (Js.Int t))) /\
  formatTime host Js.NaN = toLocaleDateString host Js.NaN.
Proof.
  split; [|reflexivity].
  intros t diff. unfold formatTime, getTime. simpl. fold diff.
  repeat split; intros H;
    repeat match goal with
    | |- context [?a <? ?b] => destruct (Z.ltb_spec a b)
    end;
    try reflexivity; exfalso; Z.div_mod_to_equations; lia.
Qed.

Lemma formatTime_buckets_witness :
  formatTime (mkHost 1700000000000 (fun _ => "11/14/2023"))
    (Js.Int (1700000000000 - 125000))
  = "2m ago".
Proof.
  destruct (formatTime_buckets (mkHost 1700000000000 (fun _ => "11/14/2023")))
    as [Hvalid _].
  destruct (Hvalid (1700000000000 - 125000)) as [_ [Hminutes _]].
  apply Hminutes. simpl. lia.
Defined.

(** ** Runs of the handlers *)

(** A declined confirmation ends the handler at once. *)
Lemma handleDeleteChat_declined (services : Services) (props : ChatListProps)
  (chatId : string) (chats : list Conversation.t) :
  confirm services confirmDeleteMessage = false ->
  handleDeleteChat services props chatId chats
  = (Normal tt, chats,
     [StopPropagation; WindowConfirm confirmDeleteMessage false]).
Proof.
  intros H. run_handler. rewrite H. reflexivity.
Qed.

(** A failed persistence deletion goes straight to the [catch] block. *)
Lemma handleDeleteChat_rejected (services : Services) (props : ChatListProps)
  (chatId : string) (chats : list Conversation.t) (error : Js.thrown) :
  confirm services confirmDeleteMessage = true ->
  deleteConversation services chatId = Throw error ->
  handleDeleteChat services props chatId chats
  = (Normal tt, chats,
     [StopPropagation; WindowConfirm confirmDeleteMessage true;
      DeleteConversation chatId;
      ConsoleError "Error deleting chat:" error;
      Alert "Failed to delete chat. Please try again."]).
Proof.
  intros Hc Hd. run_handler. rewrite Hc, Hd. reflexivity.
Qed.

Lemma handleDeleteChat_guarded (services : Services) (props : ChatListProps)
  (chatId : string) (chats : list Conversation.t) :
  delete_guarded false
    (trace_of (handleDeleteChat services props chatId chats)) = true.
Proof.
  run_handler. repeat run_case; reflexivity.
Qed.

(** What [delete_guarded] checks, spelled out on the trace. *)
Lemma delete_guarded_sound (trace : list event) :
  forall confirmed before chatId after,
    delete_guarded confirmed trace = true ->
    trace = (before ++ DeleteConversation chatId :: after)%list ->
    confirmed = true \/ exists message, In (WindowConfirm message true) before.
Proof.
  induction trace as [|ev trace IH]; intros confirmed before chatId after Hg Heq.
  - now destruct before.
  - destruct before as [|b before]; simpl in Heq; injection Heq as -> ->.
    + simpl in Hg. apply andb_prop in Hg. now left.
    + assert (Hstep : forall c, delete_guarded c
                (before ++ DeleteConversation chatId :: after) = true ->
                c = true \/ exists message, In (WindowConfirm message true) before)
        by (intros c Hc; now apply (IH c before chatId after)).
      destruct b; simpl in Hg;
        try (destruct (Hstep _ Hg) as [Hc|[m Hm]];
             [now left | right; exists m; now right]).
      * destruct (Hstep _ Hg) as [Hc|[m Hm]].
        -- apply orb_prop in Hc. destruct Hc as [Hc|Hc]; [now left|].
           subst answer. right. exists message. now left.
        -- right. exists m. now right.
      * apply andb_prop in Hg. destruct Hg as [Hc _]. now left.
Qed.

Lemma confirm_message_of_run (services : Services) (props : ChatListProps)
  (chatId : string) (chats : list Conversation.t) (message : string)
  (answer : bool) :
  In (WindowConfirm message answer)
    (trace_of (handleDeleteChat services props chatId chats)) ->
  message = confirmDeleteMessage.
Proof.
  run_handler. repeat run_case; simpl; intros H;
    repeat (destruct H as [H|H]; [try discriminate; now injection H|]);
    try contradiction.
Qed.

(** C3. The persistence deletion is called only after the user accepted
    the confirmation. When the user declines, the handler makes no deletion
    call, leaves the chat list as it was without writing it, and tells the
    parent neither of a deletion nor of a selection change. *)
Theorem handleDeleteChat_needs_confirmation (services : Services)
  (props : ChatListProps) (chatId : string) (chats : list Conversation.t) :
  (forall before deleted after,
     trace_of (handleDeleteChat services props chatId chats)
     = (before ++ DeleteConversation deleted :: after)%list ->
     In (WindowConfirm confirmDeleteMessage true) before) /\
  (confirm services confirmDeleteMessage = false ->
   ~ calls_delete (trace_of (handleDeleteChat services props chatId chats)) /\
   chats_of (handleDeleteChat services props chatId chats) = chats /\
   ~ writes_chats (trace_of (handleDeleteChat services props chatId chats)) /\
   ~ emits_deletion (trace_of (handleDeleteChat services props chatId chats)) /\
   ~ emits_selection (trace_of (handleDeleteChat services props chatId chats))).
Proof.
  split.
  - intros before deleted after Heq.
    destruct (delete_guarded_sound _ false before deleted after
                (handleDeleteChat_guarded services props chatId chats) Heq)
      as [Hf|[message Hin]]; [discriminate|].
    assert (message = confirmDeleteMessage) as <-; [|exact Hin].
    apply (confirm_message_of_run services props chatId chats message true).
    rewrite Heq. apply in_or_app. now left.
  - intros H. rewrite (handleDeleteChat_declined _ _ _ _ H).
    unfold calls_delete, writes_chats, emits_deletion, emits_selection,
      chats_of, trace_of; simpl.
    repeat split; try intros [x [Hx|[Hx|[]]]]; discriminate.
Qed.

Lemma handleDeleteChat_needs_confirmation_witness :
  chats_of
    (handleDeleteChat
       (mkServices (fun _ => false) (Normal []) (fun _ => Normal tt))
       (mkProps (fun _ => Normal tt) None [] None None) "c1"
       [Conversation.mk "c1" "Exam prep" [] [] (Js.Int 0) (Js.Int 0)])
  = [Conversation.mk "c1" "Exam prep" [] [] (Js.Int 0) (Js.Int 0)].
Proof.
  destruct (handleDeleteChat_needs_confirmation
    (mkServices (fun _ => false) (Normal []) (fun _ => Normal tt))
    (mkProps (fun _ => Normal tt) None [] None None) "c1"
    [Conversation.mk "c1" "Exam prep" [] [] (Js.Int 0) (Js.Int 0)])
    as [_ Hdeclined].
  destruct (Hdeclined eq_refl) as [_ [Hchats _]]. exact Hchats.
Defined.

(** C4. When the user confirms and the persistence deletion fails, the
    alert is shown and nothing else changes: the chat list is not written
    and keeps every chat, [onChatDelete] is not called and the selection is
    not cleared. *)
Theorem handleDeleteChat_failure (services : Services) (props : ChatListProps)
  (chatId : string) (chats : list Conversation.t) (error : Js.thrown) :
  confirm services confirmDeleteMessage = true ->
  deleteConversation services chatId = Throw error ->
  In (Alert "Failed to delete chat. Please try again.")
    (trace_of (handleDeleteChat services props chatId chats)) /\
  chats_of (handleDeleteChat services props chatId chats) = chats /\
  ~ writes_chats (trace_of (handleDeleteChat services props chatId chats)) /\
  ~ emits_deletion (trace_of (handleDeleteChat services props chatId chats)) /\
  ~ emits_selection (trace_of (handleDeleteChat services props chatId chats)).
Proof.
  intros Hc Hd. rewrite (handleDeleteChat_rejected _ _ _ _ _ Hc Hd).
  unfold writes_chats, emits_deletion, emits_selection, chats_of, trace_of;
    simpl.
  split; [tauto|]. split; [reflexivity|].
  repeat split; intros [x H];
    repeat (destruct H as [H|H]; [discriminate|]); contradiction.
Qed.

Lemma handleDeleteChat_failure_witness :
  chats_of
    (handleDeleteChat
       (mkServices (fun _ => true) (Normal [])
          (fun _ => Throw (Rejection "network down")))
       (mkProps (fun _ => Normal tt)
          (Some (Conversation.mk "c1" "Exam prep" [] [] (Js.Int 0) (Js.Int 0)))
          [] None (Some (fun _ => Normal tt)))
       "c1"
       [Conversation.mk "c1" "Exam prep" [] [] (Js.Int 0) (Js.Int 0)])
  = [Conversation.mk "c1" "Exam prep" [] [] (Js.Int 0) (Js.Int 0)].
Proof.
  apply (handleDeleteChat_failure
    (mkServices (fun _ => true) (Normal [])
       (fun _ => Throw (Rejection "network down")))
    (mkProps (fun _ => Normal tt)
       (Some (Conversation.mk "c1" "Exam prep" [] [] (Js.Int 0) (Js.Int 0)))
       [] None (Some (fun _ => Normal tt)))
    "c1"
    [Conversation.mk "c1" "Exam prep" [] [] (Js.Int 0) (Js.Int 0)]
    (Rejection "network down") eq_refl eq_refl).
Defined.

(** C8. Both persistence calls are guarded: [loadChats] and
    [handleDeleteChat] complete normally whatever the service does, a
    rejection never escaping them, and a failed load leaves the chat list
    as it was, without a write. *)
Theorem persistence_failures_contained (services : Services)
  (props : ChatListProps) (chatId : string) (chats : list Conversation.t) :
  result_of (loadChats services chats) = Normal tt /\
  result_of (handleDeleteChat services props chatId chats) = Normal tt /\
  (forall error, getConversations services = Throw error ->
     chats_of (loadChats services chats) = chats /\
     ~ writes_chats (trace_of (loadChats services chats))).
Proof.
  split; [|split].
  - run_handler. repeat run_case; reflexivity.
  - run_handler. repeat run_case;
      repeat match goal with u : unit |- _ => destruct u end; reflexivity.
  - intros error H. unfold writes_chats. run_handler. rewrite H. simpl.
    split; [reflexivity|].
    intros [x Hx]. repeat (destruct Hx as [Hx|Hx]; [discriminate|]).
    contradiction.
Qed.

Lemma persistence_failures_contained_witness :
  chats_of
    (loadChats
       (mkServices (fun _ => true) (Throw (Rejection "network down"))
          (fun _ => Normal tt))
       [Conversation.mk "c1" "Exam prep" [] [] (Js.Int 0) (Js.Int 0)])
  = [Conversation.mk "c1" "Exam prep" [] [] (Js.Int 0) (Js.Int 0)].
Proof.
  destruct (persistence_failures_contained
    (mkServices (fun _ => true) (Throw (Rejection "network down"))
       (fun _ => Normal tt))
    (mkProps (fun _ => Normal tt) None [] None None) "c1"
    [Conversation.mk "c1" "Exam prep" [] [] (Js.Int 0) (Js.Int 0)])
    as [_ [_ Hload]].
  destruct (Hload (Rejection "network down") eq_refl) as [Hchats _].
  exact Hchats.
Defined.

(* ===================================================================== *)
(** * Part III: further properties of the component *)
(* ===================================================================== *)

(** ** More on [truncateText] *)

Lemma truncateText_tiny (text : string) (maxLength : Z) :
  maxLength < Js.length text -> maxLength < 3 ->
  truncateText text maxLength = "...".
Proof.
  intros Hlong Htiny. rewrite (truncateText_long _ _ Hlong).
  destruct (js_substring_prefix text (maxLength - 3)) as [rest [_ Hl]].
  assert (0 <= Js.length text) by (unfold Js.length; lia).
  destruct (Js.substring text 0 (maxLength - 3)); [reflexivity|].
  unfold Js.length in Hl at 1. simpl String.length in Hl. lia.
Qed.

Lemma truncateText_bound (text : string) (maxLength : Z) :
  3 <= maxLength -> Js.length (truncateText text maxLength) <= maxLength.
Proof.
  intros H3. destruct (Z.le_gt_cases (Js.length text) maxLength) as [Hs|Hl].
  - now rewrite truncateText_short.
  - rewrite (truncateText_long _ _ Hl), js_length_append.
    destruct (js_substring_prefix text (maxLength - 3)) as [rest [_ Hk]].
    rewrite Hk. change (Js.length "...") with 3. lia.
Qed.

(** X1. Truncating twice is truncating once, for every limit: a text that
    was cut to fit is not cut again. *)
Theorem truncateText_idempotent (text : string) (maxLength : Z) :
  truncateText (truncateText text maxLength) maxLength
  = truncateText text maxLength.
Proof.
  destruct (Z.le_gt_cases (Js.length text) maxLength) as [Hs|Hl].
  - now rewrite !(truncateText_short text maxLength Hs).
  - destruct (Z.le_gt_cases 3 maxLength) as [H3|H3].
    + apply truncateText_short. now apply truncateText_bound.
    + rewrite (truncateText_tiny text maxLength Hl H3).
      apply truncateText_tiny; [|exact H3].
      change (Js.length "...") with 3. lia.
Qed.

(** ** Lengths of the derived strings *)

(** X2. The preview never exceeds 30 characters. The display name of a chat
    with a name of its own never exceeds 30 characters either, but an
    auto-generated one can: with at most two linked documents that exist it
    is bounded by 33 characters (two names of 15 and the [' + '] between
    them), and the [' +k'] suffix comes on top of that. *)
Theorem derived_strings_bounded (availablePDFs : list PDFDocument.t)
  (chat : Conversation.t) :
  match getLastMessage chat with
  | Normal preview => Js.length preview <= 30
  | Throw _ => False
  end /\
  match getChatDisplayName availablePDFs chat with
  | Normal shown =>
      (Conversation.name chat <> "New Chat" -> Js.length shown <= 30) /\
      (existingPdfCount availablePDFs chat <= 2 -> Js.length shown <= 33)
  | Throw _ => False
  end.
Proof.
  split.
  - destruct (getLastMessage_cases chat) as [->|[last [_ ->]]].
    + vm_compute. discriminate.
    + now apply truncateText_bound.
  - rewrite getChatDisplayName_named, <- existingPdfCount_linked.
    assert (B30 : forall t, Js.length (truncateText t 30) <= 30)
      by (intros t; now apply truncateText_bound).
    assert (B15 : forall t, Js.length (truncateText t 15) <= 15)
      by (intros t; now apply truncateText_bound).
    destruct (String.eqb_spec (Conversation.name chat) "New Chat") as [E|E].
    + split; [intros H; now elim H|]. intros Hfew.
      destruct (namedDocuments availablePDFs chat) as [|d1 [|d2 more]];
        unfold composedName; cbn [map].
      * vm_compute. discriminate.
      * specialize (B30 (PDFDocument.name d1)). lia.
      * destruct (Z.gtb_spec (existingPdfCount availablePDFs chat) 2); [lia|].
        rewrite !js_length_append.
        pose proof (B15 (PDFDocument.name d1)).
        pose proof (B15 (PDFDocument.name d2)).
        change (Js.length " + ") with 3. change (Js.length "") with 0. lia.
    + split; intros _; specialize (B30 (Conversation.name chat)); lia.
Qed.

Lemma derived_strings_bounded_witness :
  Js.length "Constitutional Law Outline for the spring term" > 30 /\
  match getChatDisplayName []
          (Conversation.mk "c1" "Constitutional Law Outline for the spring term"
             [] [] (Js.Int 0) (Js.Int 0)) with
  | Normal shown => Js.length shown <= 30
  | Throw _ => False
  end.
Proof.
  split; [vm_compute; reflexivity|].
  pose proof (derived_strings_bounded []
    (Conversation.mk "c1" "Constitutional Law Outline for the spring term"
       [] [] (Js.Int 0) (Js.Int 0))) as [_ H].
  destruct (getChatDisplayName _ _) as [shown|]; [|exact H].
  destruct H as [Hown _]. apply Hown. discriminate.
Defined.

(** An auto-generated name of two long document names, with a third
    document linked, has 36 characters. *)
Example auto_name_longer_than_30 :
  getChatDisplayName
    [PDFDocument.mk "p1" "Contracts Outline Fall.pdf";
     PDFDocument.mk "p2" "Constitutional Law.pdf";
     PDFDocument.mk "p3" "Torts.pdf"]
    (Conversation.mk "c1" "New Chat" ["p1"; "p2"; "p3"] [] (Js.Int 0) (Js.Int 0))
  = Normal "Contracts Ou... + Constitution... +1".
Proof. reflexivity. Qed.

(** ** The counts [formatTime] shows *)

(** X3. For a valid date [formatTime] shows ['Just now'], or a count of
    minutes from 1 to 59, of hours from 1 to 23, of days from 1 to 6, or,
    from 7 days on, the locale date string: it never shows ['0m ago'],
    ['60m ago'], ['24h ago'] or ['7d ago']. *)
Theorem formatTime_counts_in_range (host : Host) (t : Z) :
  (now host - t < 60000 /\ formatTime host (Js.Int t) = "Just now") \/
  (exists n, 1 <= n <= 59 /\
     formatTime host (Js.Int t) = (Js.int_toString n ++ "m ago")%string) \/
  (exists n, 1 <= n <= 23 /\
     formatTime host (Js.Int t) = (Js.int_toString n ++ "h ago")%string) \/
  (exists n, 1 <= n <= 6 /\
     formatTime host (Js.Int t) = (Js.int_toString n ++ "d ago")%string) \/
  (604800000 <= now host - t /\
   formatTime host (Js.Int t) = toLocaleDateString host (Js.Int t)).
Proof.
  unfold formatTime, getTime. simpl.
  set (diff := now host - t).
  destruct (Z.ltb_spec (diff / 60000) 1) as [Hm1|Hm1].
  { left. split; [Z.div_mod_to_equations; lia | reflexivity]. }
  destruct (Z.ltb_spec (diff / 60000) 60) as [Hm|Hm].
  { right; left. exists (diff / 60000). split; [lia | reflexivity]. }
  destruct (Z.ltb_spec (diff / 3600000) 24) as [Hh|Hh].
  { right; right; left. exists (diff / 3600000).
    split; [Z.div_mod_to_equations; lia | reflexivity]. }
  destruct (Z.ltb_spec (diff / 86400000) 7) as [Hd|Hd].
  { right; right; right; left. exists (diff / 86400000).
    split; [Z.div_mod_to_equations; lia | reflexivity]. }
  right; right; right; right.
  split; [Z.div_mod_to_equations; lia | reflexivity].
Qed.

(** ** The badge *)




(** ** Deleting a chat *)

Lemma handleDeleteChat_accepted_chats (services : Services)
  (props : ChatListProps) (chatId : string) (chats : list Conversation.t) :
  confirm services confirmDeleteMessage = true ->
  deleteConversation services chatId = Normal tt ->
  chats_of (handleDeleteChat services props chatId chats)
  = filter (fun chat => negb (Conversation.id chat =? chatId)%string) chats.
Proof.
  intros Hc Hd. run_handler. rewrite Hc, Hd. simpl.
  repeat run_case; reflexivity.
Qed.

(** X5. After a confirmed deletion that the persistence service accepted,
    the chat list holds exactly the chats it held before whose id is not
    the deleted one, in their order, whatever the parent's callbacks do. *)
Theorem handleDeleteChat_removes_chat (services : Services)
  (props : ChatListProps) (chatId : string) (chats : list Conversation.t) :
  confirm services confirmDeleteMessage = true ->
  deleteConversation services chatId = Normal tt ->
  chats_of (handleDeleteChat services props chatId chats)
  = filter (fun chat => negb (Conversation.id chat =? chatId)%string) chats /\
  (forall chat,
     In chat (chats_of (handleDeleteChat services props chatId chats)) <->
     In chat chats /\ Conversation.id chat <> chatId).
Proof.
  intros Hc Hd. rewrite (handleDeleteChat_accepted_chats _ _ _ _ Hc Hd).
  split; [reflexivity|]. intros chat. rewrite filter_In.
  now rewrite negb_true_iff, String.eqb_neq.
Qed.

Lemma handleDeleteChat_removes_chat_witness :
  chats_of
    (handleDeleteChat
       (mkServices (fun _ => true) (Normal []) (fun _ => Normal tt))
       (mkProps (fun _ => Normal tt) None [] None None) "c1"
       [Conversation.mk "c1" "Exam prep" [] [] (Js.Int 0) (Js.Int 0);
        Conversation.mk "c2" "Moot court" [] [] (Js.Int 0) (Js.Int 0)])
  = [Conversation.mk "c2" "Moot court" [] [] (Js.Int 0) (Js.Int 0)].
Proof.
  apply (handleDeleteChat_removes_chat
    (mkServices (fun _ => true) (Normal []) (fun _ => Normal tt))
    (mkProps (fun _ => Normal tt) None [] None None) "c1"
    [Conversation.mk "c1" "Exam prep" [] [] (Js.Int 0) (Js.Int 0);
     Conversation.mk "c2" "Moot court" [] [] (Js.Int 0) (Js.Int 0)]
    eq_refl eq_refl).
Defined.

(** X6. Deleting an id that no chat of the list has leaves the list as it
    was, although the persistence deletion is still called for that id. *)
Theorem handleDeleteChat_unknown_id (services : Services)
  (props : ChatListProps) (chatId : string) (chats : list Conversation.t) :
  confirm services confirmDeleteMessage = true ->
  deleteConversation services chatId = Normal tt ->
  (forall chat, In chat chats -> Conversation.id chat <> chatId) ->
  chats_of (handleDeleteChat services props chatId chats) = chats /\
  deletions (trace_of (handleDeleteChat services props chatId chats))
  = [chatId].
Proof.
  intros Hc Hd Hnone. split.
  - rewrite (handleDeleteChat_accepted_chats _ _ _ _ Hc Hd).
    apply filter_all. intros chat Hin.
    apply negb_true_iff, String.eqb_neq. now apply Hnone.
  - run_handler. rewrite Hc, Hd. simpl. repeat run_case; reflexivity.
Qed.

Lemma handleDeleteChat_unknown_id_witness :
  chats_of
    (handleDeleteChat
       (mkServices (fun _ => true) (Normal []) (fun _ => Normal tt))
       (mkProps (fun _ => Normal tt) None [] None None) "c9"
       [Conversation.mk "c1" "Exam prep" [] [] (Js.Int 0) (Js.Int 0)])
  = [Conversation.mk "c1" "Exam prep" [] [] (Js.Int 0) (Js.Int 0)].
Proof.
  apply (handleDeleteChat_unknown_id
    (mkServices (fun _ => true) (Normal []) (fun _ => Normal tt))
    (mkProps (fun _ => Normal tt) None [] None None) "c9"
    [Conversation.mk "c1" "Exam prep" [] [] (Js.Int 0) (Js.Int 0)]
    eq_refl eq_refl).
  intros chat [<-|[]]. discriminate.
Defined.

(** X7. The handler asks the persistence service for exactly one deletion,
    of the requested id, when the user accepts, and for none when the user
    declines: it never deletes another conversation and never retries. *)
Theorem handleDeleteChat_deletions (services : Services)
  (props : ChatListProps) (chatId : string) (chats : list Conversation.t) :
  deletions (trace_of (handleDeleteChat services props chatId chats))
  = if confirm services confirmDeleteMessage then [chatId] else [].
Proof.
  run_handler. repeat run_case; reflexivity.
Qed.

(** X8. When the parent's [onChatDelete] throws after the persistence
    deletion succeeded, the chat is already removed from the list, the
    failure alert is shown all the same, and the selection is not cleared,
    even when the deleted chat was the selected one. *)
Theorem handleDeleteChat_callback_throws (services : Services)
  (props : ChatListProps) (chatId : string) (chats : list Conversation.t)
  (notify : string -> completion unit) (error : Js.thrown) :
  confirm services confirmDeleteMessage = true ->
  deleteConversation services chatId = Normal tt ->
  onChatDelete props = Some notify ->
  notify chatId = Throw error ->
  handleDeleteChat services props chatId chats
  = (Normal tt,
     filter (fun chat => negb (Conversation.id chat =? chatId)%string) chats,
     [StopPropagation; WindowConfirm confirmDeleteMessage true;
      DeleteConversation chatId;
      SetChats
        (filter (fun chat => negb (Conversation.id chat =? chatId)%string) chats);
      OnChatDelete chatId;
      ConsoleError "Error deleting chat:" error;
      Alert "Failed to delete chat. Please try again."]).
Proof.
  intros Hc Hd Hn He. run_handler. rewrite Hc, Hd, Hn. simpl. rewrite He.
  reflexivity.
Qed.

Lemma handleDeleteChat_callback_throws_witness :
  chats_of
    (handleDeleteChat
       (mkServices (fun _ => true) (Normal []) (fun _ => Normal tt))
       (mkProps (fun _ => Normal tt)
          (Some (Conversation.mk "c1" "Exam prep" [] [] (Js.Int 0) (Js.Int 0)))
          [] None (Some (fun _ => Throw (Rejection "parent failed"))))
       "c1"
       [Conversation.mk "c1" "Exam prep" [] [] (Js.Int 0) (Js.Int 0)])
  = [].
Proof.
  rewrite (handleDeleteChat_callback_throws
    (mkServices (fun _ => true) (Normal []) (fun _ => Normal tt))
    (mkProps (fun _ => Normal tt)
       (Some (Conversation.mk "c1" "Exam prep" [] [] (Js.Int 0) (Js.Int 0)))
       [] None (Some (fun _ => Throw (Rejection "parent failed"))))
    "c1"
    [Conversation.mk "c1" "Exam prep" [] [] (Js.Int 0) (Js.Int 0)]
    (fun _ => Throw (Rejection "parent failed")) (Rejection "parent failed")
    eq_refl eq_refl eq_refl eq_refl).
  reflexivity.
Defined.



(** ** Loading and refreshing *)

(** X10. The refresh effect never throws. It does nothing when
    [refreshTrigger] is undefined, 0 or NaN: no call of the persistence
    service and no write of the chat list. For a trigger that is a
    non-zero integer and a service that resolves, it replaces the chat list
    by the loaded conversations, whatever the list held before. *)
Theorem refreshEffect_spec (services : Services) (props : ChatListProps)
  (chats : list Conversation.t) :
  result_of (refreshEffect services props chats) = Normal tt /\
  (refreshTrigger props = None \/
   refreshTrigger props = Some (Js.Int 0) \/
   refreshTrigger props = Some Js.NaN ->
   refreshEffect services props chats = (Normal tt, chats, [])) /\
  (forall n loaded,
     refreshTrigger props = Some (Js.Int n) -> n <> 0 ->
     getConversations services = Normal loaded ->
     refreshEffect services props chats
     = (Normal tt, loaded, [GetConversations; SetChats loaded])).
Proof.
  split; [|split].
  - unfold refreshEffect.
    destruct (refreshTrigger props) as [[n|]|]; simpl; try reflexivity.
    destruct (n =? 0); simpl; [reflexivity|].
    run_handler. destruct (getConversations services); reflexivity.
  - intros [H|[H|H]]; unfold refreshEffect; rewrite H; reflexivity.
  - intros n loaded Ht Hn Hl. unfold refreshEffect. rewrite Ht. simpl.
    destruct (Z.eqb_spec n 0) as [E|_]; [contradiction|]. simpl.
    run_handler. rewrite Hl. reflexivity.
Qed.

Lemma refreshEffect_spec_witness :
  refreshEffect
    (mkServices (fun _ => true)
       (Normal [Conversation.mk "c1" "Exam prep" [] [] (Js.Int 0) (Js.Int 0)])
       (fun _ => Normal tt))
    (mkProps (fun _ => Normal tt) None [] (Some (Js.Int 0)) None)
    [Conversation.mk "c0" "Moot court" [] [] (Js.Int 0) (Js.Int 0)]
  = (Normal tt,
     [Conversation.mk "c0" "Moot court" [] [] (Js.Int 0) (Js.Int 0)], []) /\
  refreshEffect
    (mkServices (fun _ => true)
       (Normal [Conversation.mk "c1" "Exam prep" [] [] (Js.Int 0) (Js.Int 0)])
       (fun _ => Normal tt))
    (mkProps (fun _ => Normal tt) None [] (Some (Js.Int 3)) None)
    [Conversation.mk "c0" "Moot court" [] [] (Js.Int 0) (Js.Int 0)]
  = (Normal tt,
     [Conversation.mk "c1" "Exam prep" [] [] (Js.Int 0) (Js.Int 0)],
     [GetConversations;
      SetChats [Conversation.mk "c1" "Exam prep" [] [] (Js.Int 0) (Js.Int 0)]]).
Proof.
  split.
  - destruct (refreshEffect_spec
      (mkServices (fun _ => true)
         (Normal [Conversation.mk "c1" "Exam prep" [] [] (Js.Int 0) (Js.Int 0)])
         (fun _ => Normal tt))
      (mkProps (fun _ => Normal tt) None [] (Some (Js.Int 0)) None)
      [Conversation.mk "c0" "Moot court" [] [] (Js.Int 0) (Js.Int 0)])
      as [_ [Hfalsy _]].
    apply Hfalsy. right; left. reflexivity.
  - destruct (refreshEffect_spec
      (mkServices (fun _ => true)
         (Normal [Conversation.mk "c1" "Exam prep" [] [] (Js.Int 0) (Js.Int 0)])
         (fun _ => Normal tt))
      (mkProps (fun _ => Normal tt) None [] (Some (Js.Int 3)) None)
      [Conversation.mk "c0" "Moot court" [] [] (Js.Int 0) (Js.Int 0)])
      as [_ [_ Hreload]].
    apply (Hreload 3); [reflexivity | lia | reflexivity].
Defined.

(** ** Starting a chat *)

(** X11. [handleNewChat] hands the parent a conversation with the generated
    id and does nothing else: the chat list is not written and the
    persistence service is not called. It is not guarded: it completes as
    the parent's callback does. Whatever documents are available, the new
    conversation is displayed as ['New Chat'] with the preview
    ['No messages yet'] and no badge. *)
Theorem handleNewChat_spec (props : ChatListProps) (uuid : string)
  (created updated : Z) (chats : list Conversation.t) :
  exists newChat,
    handleNewChat props uuid created updated chats
    = (onChatSelect props (Some newChat), chats,
       [OnChatSelect (Some newChat)]) /\
    Conversation.id newChat = uuid /\
    Conversation.pdfIds newChat = [] /\
    Conversation.messages newChat = [] /\
    (forall availablePDFs,
       getChatDisplayName availablePDFs newChat = Normal "New Chat") /\
    getLastMessage newChat = Normal "No messages yet" /\
    (forall availablePDFs, chatPdfBadge availablePDFs newChat = None).
Proof.
  eexists. split; [reflexivity|]. repeat split.
Qed.

(** ** The rendered list *)

Lemma renderChatItem_shows (props : ChatListProps) (host : Host)
  (chat : Conversation.t) :
  exists item,
    renderChatItem props host chat = Normal item /\ shows props host chat item.
Proof.
  unfold renderChatItem, shows.
  destruct (getChatDisplayName (availablePDFs props) chat) as [shown|e] eqn:En.
  - destruct (getLastMessage_cases chat) as [E|[last [_ E]]]; rewrite E;
      eexists; (split; [reflexivity|]); cbn [item_key item_selected item_name
        item_preview item_time item_badge]; repeat split.
  - rewrite getChatDisplayName_named in En. discriminate.
Qed.

Lemma renderChatItems_rows (props : ChatListProps) (host : Host)
  (chats : list Conversation.t) :
  exists items,
    renderChatItems props host chats = Normal items /\
    Forall2 (shows props host) chats items.
Proof.
  induction chats as [|chat rest [items [Hr Hf]]]; cbn [renderChatItems].
  - exists []. split; [reflexivity | constructor].
  - destruct (renderChatItem_shows props host chat) as [item [Hi Hs]].
    rewrite Hi, Hr. exists (item :: items).
    split; [reflexivity | now constructor].
Qed.

Lemma rows_keys (props : ChatListProps) (host : Host)
  (chats : list Conversation.t) (items : list ChatItem) :
  Forall2 (shows props host) chats items ->
  map item_key items = map Conversation.id chats.
Proof.
  induction 1 as [|chat item chats items [Hk _] _ IH]; simpl;
    [reflexivity | now rewrite Hk, IH].
Qed.



(** X13. After a confirmed deletion that the persistence service accepted,
    the next render, under whatever props, has no row for the deleted id. *)
Theorem deleted_chat_has_no_row (services : Services)
  (props next : ChatListProps) (host : Host) (chatId : string)
  (chats : list Conversation.t) :
  confirm services confirmDeleteMessage = true ->
  deleteConversation services chatId = Normal tt ->
  match render next host
          (chats_of (handleDeleteChat services props chatId chats)) with
  | Normal EmptyState => True
  | Normal (ChatItems items) =>
      forall item, In item items -> item_key item <> chatId
  | Throw _ => False
  end.
Proof.
  intros Hc Hd. rewrite (handleDeleteChat_accepted_chats _ _ _ _ Hc Hd).
  set (kept := filter _ chats).
  assert (Hkept : forall chat, In chat kept -> Conversation.id chat <> chatId).
  { intros chat Hin. apply filter_In in Hin. destruct Hin as [_ Hid].
    now apply negb_true_iff, String.eqb_neq in Hid. }
  unfold render. destruct (Js.array_length kept =? 0); [exact I|].
  destruct (renderChatItems_rows next host kept) as [items [Hr Hf]].
  rewrite Hr. cbn [Js.bind]. intros item Hin.
  apply (in_map item_key) in Hin. rewrite (rows_keys _ _ _ _ Hf) in Hin.
  apply in_map_iff in Hin. destruct Hin as [chat [<- Hchat]].
  now apply Hkept.
Qed.

Lemma deleted_chat_has_no_row_witness :
  match render (mkProps (fun _ => Normal tt) None [] None None)
          (mkHost 1700000000000 (fun _ => "11/14/2023"))
          (chats_of
             (handleDeleteChat
                (mkServices (fun _ => true) (Normal []) (fun _ => Normal tt))
                (mkProps (fun _ => Normal tt) None [] None None) "c1"
                [Conversation.mk "c1" "Exam prep" [] [] (Js.Int 0) (Js.Int 0);
                 Conversation.mk "c2" "Moot court" [] [] (Js.Int 0) (Js.Int 0)]))
  with
  | Normal EmptyState => True
  | Normal (ChatItems items) =>
      forall item, In item items -> item_key item <> "c1"
  | Throw _ => False
  end.
Proof.
  apply (deleted_chat_has_no_row
    (mkServices (fun _ => true) (Normal []) (fun _ => Normal tt))
    (mkProps (fun _ => Normal tt) None [] None None)
    (mkProps (fun _ => Normal tt) None [] None None)
    (mkHost 1700000000000 (fun _ => "11/14/2023")) "c1"
    [Conversation.mk "c1" "Exam prep" [] [] (Js.Int 0) (Js.Int 0);
     Conversation.mk "c2" "Moot court" [] [] (Js.Int 0) (Js.Int 0)]
    eq_refl eq_refl).
Defined.

(** ** What the helpers depend on *)






